(** * Workflow orchestration and approval gating of the ocean-analysis agents

    A shallow embedding of [ocean_analysis/agents/supervisor_agent.py],
    [ocean_analysis/core/agent_orchestrator.py] and of the [configure]
    methods of the agent classes, with the properties their specification
    states about them.

    Python values are an inductive type, dictionaries with string keys are
    [gmap string _], Python floats are binary64 primitive floats, exceptions
    are the [Err] branch of [result], and every object attribute a method
    assigns is a field of an explicit state record. *)

From Stdlib Require Import ZArith Floats.
From stdpp Require Import gmap strings list fin_maps.

Set Warnings "-register-all,-inexact-float".

Open Scope string_scope.

(** ** Python values *)

Inductive pyval : Type :=
| PNone
| PBool (b : bool)
| PInt (z : Z)
| PFloat (f : float)
| PStr (s : string)
| PDatetime (t : Z)
| PList (l : list pyval)
| PTuple (l : list pyval)
| PDict (d : gmap string pyval)
| PInstance (cls : string) (fields : gmap string pyval).

(** A dictionary display [{'k': v, ...}]. *)
Definition dict (items : list (string * pyval)) : gmap string pyval :=
  list_to_map items.

(** [bool(x)]. *)
Definition truthy (v : pyval) : bool :=
  match v with
  | PNone => false
  | PBool b => b
  | PInt z => negb (Z.eqb z 0)
  | PFloat f => negb (f =? 0)%float
  | PStr s => negb (Nat.eqb (String.length s) 0)
  | PDatetime _ => true
  | PList l | PTuple l => negb (Nat.eqb (length l) 0)
  | PDict d => negb (Nat.eqb (size d) 0)
  | PInstance _ _ => true
  end.

(** [bool(d)] of a dictionary: [len(d) != 0]. *)
Definition dict_truthy (d : gmap string pyval) : bool :=
  negb (Nat.eqb (size d) 0).


(** ** Exceptions *)

Inductive exn : Type :=
| AttributeError (msg : string)
| NameError (msg : string)
| TypeError (msg : string)
| ValueError (msg : string)
| KeyError (msg : string)
| FileNotFoundError (msg : string)
| OSError (msg : string)
| Exception (msg : string).

(** [str(e)]. *)
Definition exn_str (e : exn) : string :=
  match e with
  | AttributeError m | NameError m | TypeError m | ValueError m
  | KeyError m | FileNotFoundError m | OSError m | Exception m => m
  end.

Inductive result (A : Type) : Type :=
| Ok (a : A)
| Err (e : exn).
Arguments Ok {A} a.
Arguments Err {A} e.

Definition bind {A B} (r : result A) (k : A -> result B) : result B :=
  match r with
  | Ok a => k a
  | Err e => Err e
  end.

Notation "x <- r ;; k" := (bind r (fun x => k))
  (at level 100, r at next level, right associativity).

Fixpoint mapM {A B} (f : A -> result B) (l : list A) : result (list B) :=
  match l with
  | [] => Ok []
  | a :: l' => b <- f a ;; bs <- mapM f l' ;; Ok (b :: bs)
  end.

(** [iter(v)]: the items a [for] loop over [v] visits.  A dictionary yields
    its keys; in this model they come in the map's key order. *)
Definition py_iter (v : pyval) : result (list pyval) :=
  match v with
  | PList l | PTuple l => Ok l
  | PStr s => Ok (map (fun c => PStr (String c EmptyString)) (String.list_ascii_of_string s))
  | PDict d => Ok (map (fun kv => PStr (fst kv)) (map_to_list d))
  | PNone => Err (TypeError "'NoneType' object is not iterable")
  | PBool _ => Err (TypeError "'bool' object is not iterable")
  | PInt _ => Err (TypeError "'int' object is not iterable")
  | PFloat _ => Err (TypeError "'float' object is not iterable")
  | PDatetime _ => Err (TypeError "'datetime.datetime' object is not iterable")
  | PInstance _ _ => Err (TypeError "object is not iterable")
  end.

(** ** The world outside the process *)

Record Env : Type := {
  (** the reading [datetime.now()] returns during the call *)
  now : Z;
  (** [Path.exists()]: the answer, or the [OSError] the probe raises *)
  path_exists : string -> result bool;
  (** [os.getenv("TAVILY_API_KEY")] after [load_dotenv()] *)
  TAVILY_API_KEY : option string;
  (** [Path("cache/research").mkdir(parents=True, exist_ok=True)] *)
  mkdir_cache_research : result unit
}.

(** [output_dir / file] for a relative [file]. *)
Definition path_join (dir file : string) : string := dir ++ "/" ++ file.

(** ** Name resolution *)

(** The names of the [builtins] module every module scope falls back to. *)
Definition builtins : list string :=
  [ "ArithmeticError"; "AssertionError"; "AttributeError"; "BaseException";
    "BlockingIOError"; "BrokenPipeError"; "BufferError"; "BytesWarning";
    "ChildProcessError"; "ConnectionAbortedError"; "ConnectionError";
    "ConnectionRefusedError"; "ConnectionResetError"; "DeprecationWarning";
    "EOFError"; "Ellipsis"; "EnvironmentError"; "Exception"; "False";
    "FileExistsError"; "FileNotFoundError"; "FloatingPointError";
    "FutureWarning"; "GeneratorExit"; "IOError"; "ImportError";
    "ImportWarning"; "IndentationError"; "IndexError"; "InterruptedError";
    "IsADirectoryError"; "KeyError"; "KeyboardInterrupt"; "LookupError";
    "MemoryError"; "ModuleNotFoundError"; "NameError"; "None";
    "NotADirectoryError"; "NotImplemented"; "NotImplementedError"; "OSError";
    "OverflowError"; "PendingDeprecationWarning"; "PermissionError";
    "ProcessLookupError"; "RecursionError"; "ReferenceError";
    "ResourceWarning"; "RuntimeError"; "RuntimeWarning"; "StopAsyncIteration";
    "StopIteration"; "SyntaxError"; "SyntaxWarning"; "SystemError";
    "SystemExit"; "TabError"; "TimeoutError"; "True"; "TypeError";
    "UnboundLocalError"; "UnicodeDecodeError"; "UnicodeEncodeError";
    "UnicodeError"; "UnicodeTranslateError"; "UnicodeWarning"; "UserWarning";
    "ValueError"; "Warning"; "ZeroDivisionError"; "__build_class__";
    "__debug__"; "__doc__"; "__import__"; "__loader__"; "__name__";
    "__package__"; "__spec__"; "abs"; "aiter"; "all"; "anext"; "any"; "ascii";
    "bin"; "bool"; "breakpoint"; "bytearray"; "bytes"; "callable"; "chr";
    "classmethod"; "compile"; "complex"; "copyright"; "credits"; "delattr";
    "dict"; "dir"; "divmod"; "enumerate"; "eval"; "exec"; "exit"; "filter";
    "float"; "format"; "frozenset"; "getattr"; "globals"; "hasattr"; "hash";
    "help"; "hex"; "id"; "input"; "int"; "isinstance"; "issubclass"; "iter";
    "len"; "license"; "list"; "locals"; "map"; "max"; "memoryview"; "min";
    "next"; "object"; "oct"; "open"; "ord"; "pow"; "print"; "property";
    "quit"; "range"; "repr"; "reversed"; "round"; "set"; "setattr"; "slice";
    "sorted"; "staticmethod"; "str"; "sum"; "super"; "tuple"; "type"; "vars";
    "zip" ].

(** A global name used inside a function body: the module's globals, then
    the builtins, else [NameError]. *)
Definition lookup_global (module_globals : list string) (name : string) : result unit :=
  if bool_decide (name ∈ (module_globals ++ builtins)%list) then Ok tt
  else Err (NameError ("name '" ++ name ++ "' is not defined")).

(** [datetime.now()] evaluated in a module with the given globals; the class
    [datetime] of the standard library is what the name stands for when a
    module has imported it. *)
Definition datetime_now (module_globals : list string) (env : Env) : result pyval :=
  _ <- lookup_global module_globals "datetime" ;;
  Ok (PDatetime (now env)).

(** ** The agent classes ([ocean_analysis/agents/*_agent.py]) *)

Module Agents.

Inductive agent_class : Type :=
| ParserAgent
| QAAgent
| AnalystAgent
| StatsAgent
| WaterMassAgent
| ReportAgent
| PosterAgent
| ResearcherAgent.

Definition class_name (c : agent_class) : string :=
  match c with
  | ParserAgent => "ParserAgent"
  | QAAgent => "QAAgent"
  | AnalystAgent => "AnalystAgent"
  | StatsAgent => "StatsAgent"
  | WaterMassAgent => "WaterMassAgent"
  | ReportAgent => "ReportAgent"
  | PosterAgent => "PosterAgent"
  | ResearcherAgent => "ResearcherAgent"
  end.

(** The methods each class body defines, in source order. *)
Definition class_methods (c : agent_class) : list string :=
  match c with
  | ParserAgent =>
      [ "__init__"; "process_in_batches"; "_process_batch";
        "_process_single_file"; "_combine_batch_results" ]
  | QAAgent =>
      [ "__init__"; "configure"; "check_quality"; "_check_density_consistency" ]
  | AnalystAgent =>
      [ "__init__"; "configure"; "set_output_dir"; "plot_ctd_profiles";
        "analyze"; "_plot_vertical_section"; "_plot_ts_diagram";
        "_plot_vertical_sections"; "_plot_spatial_distribution";
        "_calculate_statistics"; "_calculate_mean_profiles" ]
  | StatsAgent =>
      [ "__init__"; "configure"; "analyze"; "_calculate_basic_stats";
        "_analyze_correlation"; "_analyze_stratification"; "_generate_summary" ]
  | WaterMassAgent =>
      [ "__init__"; "configure"; "set_output_dir"; "analyze";
        "_identify_water_masses"; "_generate_visualizations" ]
  | ReportAgent =>
      [ "__init__"; "configure"; "set_output_dir"; "generate_report";
        "_format_value"; "_generate_markdown_content" ]
  | PosterAgent =>
      [ "__init__"; "configure"; "set_output_dir"; "generate_poster";
        "_add_header_section"; "_add_introduction_section";
        "_add_methods_section"; "_add_results_section" ]
  | ResearcherAgent =>
      [ "__init__"; "configure"; "search"; "_async_search"; "_process_results";
        "_is_valid_source"; "_extract_year"; "_format_citation";
        "_is_cache_valid"; "_cache_results"; "get_related_papers";
        "summarize_findings"; "export_bibliography" ]
  end.

(** The attributes [__init__] assigns on the instance. *)
Definition instance_attributes (c : agent_class) : list string :=
  match c with
  | ParserAgent => [ "logger"; "config"; "data_path" ]
  | QAAgent => [ "logger"; "config" ]
  | AnalystAgent => [ "logger"; "config"; "output_dir" ]
  | StatsAgent => [ "logger"; "config"; "scaler" ]
  | WaterMassAgent => [ "logger"; "config"; "output_dir" ]
  | ReportAgent => [ "logger"; "config"; "output_dir" ]
  | PosterAgent => [ "logger"; "config"; "output_dir" ]
  | ResearcherAgent =>
      [ "api_key"; "client"; "cache_dir"; "logger"; "config"; "cache" ]
  end.

(** An agent object: its class and its [config] dictionary (the one
    attribute the supervisor reads and [configure] writes). *)
Record agent : Type := {
  cls : agent_class;
  config : gmap string pyval
}.

(** [hasattr(agent, name)] for the method and attribute names above. *)
Definition hasattr (a : agent) (name : string) : bool :=
  bool_decide (name ∈ (class_methods (cls a) ++ instance_attributes (cls a))%list).

(** *** [WaterMassDefinition], a dataclass *)

Definition WaterMassDefinition_fields : list string :=
  [ "name"; "temperature"; "salinity"; "oxygen"; "depth_range"; "sigma_t";
    "region"; "description" ].

Definition field_default (kw : gmap string pyval) (k : string) (d : pyval) : pyval :=
  default d (kw !! k).

(** The constructor called with the keywords [kw]: every keyword must be a
    field, and the three fields without a default must be given. *)
Definition WaterMassDefinition (kw : gmap string pyval) : result pyval :=
  if bool_decide (dom kw ⊆ (list_to_set WaterMassDefinition_fields : gset string)) then
    match kw !! "name", kw !! "temperature", kw !! "salinity" with
    | Some n, Some t, Some s =>
        Ok (PInstance "WaterMassDefinition"
              (dict [ ("name", n); ("temperature", t); ("salinity", s);
                      ("oxygen", field_default kw "oxygen" PNone);
                      ("depth_range", field_default kw "depth_range" PNone);
                      ("sigma_t", field_default kw "sigma_t" PNone);
                      ("region", field_default kw "region" PNone);
                      ("description", field_default kw "description" (PStr EmptyString)) ]))
    | _, _, _ =>
        Err (TypeError "__init__() missing required positional arguments")
    end
  else Err (TypeError "__init__() got an unexpected keyword argument").

(** *** The default [config] of each class *)

Definition ParserAgent_config : gmap string pyval :=
  dict [ ("variables", PList [ PStr "temperature"; PStr "salinity"; PStr "pressure";
                               PStr "latitude"; PStr "longitude" ]);
         ("units", PDict (dict [ ("temperature", PStr "°C"); ("salinity", PStr "PSU");
                                 ("pressure", PStr "dbar"); ("latitude", PStr "°N");
                                 ("longitude", PStr "°E") ]));
         ("encoding", PStr "utf-8");
         ("delimiter", PStr ",");
         ("decimal", PStr ".");
         ("na_values", PList [ PStr "NA"; PStr "NaN"; PStr EmptyString; PStr " " ]);
         ("batch_size", PInt 1000);
         ("max_workers", PInt 4) ].

Definition QAAgent_config : gmap string pyval :=
  dict [ ("min_samples", PInt 5);
         ("min_values", PDict (dict [ ("temperature", PInt (-2)); ("salinity", PInt 0);
                                      ("depth", PInt (-11000)) ]));
         ("max_values", PDict (dict [ ("temperature", PInt 35); ("salinity", PInt 40);
                                      ("depth", PInt 0) ]));
         ("outlier_threshold", PInt 3);
         ("max_gap", PInt 100);
         ("min_density", PInt 1020);
         ("max_density", PInt 1040) ].

Definition AnalystAgent_config : gmap string pyval :=
  dict [ ("depth_bins", PList [ PInt (-10); PInt (-50); PInt (-100); PInt (-200);
                                PInt (-500); PInt (-1000) ]);
         ("grid_resolution", PFloat 0.5);
         ("interpolation_method", PStr "linear");
         ("colormap", PStr "RdYlBu_r");
         ("figure_dpi", PInt 300);
         ("figure_format", PStr "png") ].

Definition StatsAgent_config : gmap string pyval :=
  dict [ ("scaling", PStr "standard");
         ("min_samples", PInt 10);
         ("significance_level", PFloat 0.05) ].

Definition reference_mass (name : string) (temperature salinity : float)
    (depth_range : Z * Z) (description : string) : pyval :=
  PInstance "WaterMassDefinition"
    (dict [ ("name", PStr name); ("temperature", PFloat temperature);
            ("salinity", PFloat salinity); ("oxygen", PNone);
            ("depth_range", PTuple [ PInt (fst depth_range); PInt (snd depth_range) ]);
            ("sigma_t", PNone); ("region", PNone);
            ("description", PStr description) ]).

Definition WaterMassAgent_config : gmap string pyval :=
  dict [ ("min_points", PInt 10);
         ("min_fraction", PFloat 0.05);
         ("max_distance", PFloat 0.5);
         ("reference_masses",
           PList [ reference_mass "AAIW" 2.2 33.8 (-500, -1000)%Z "Agua Intermedia Antártica";
                   reference_mass "SACW" 15.0 35.5 (-100, -500)%Z "Agua Central del Atlántico Sur";
                   reference_mass "TW" 20.0 36.0 (0, -100)%Z "Agua Tropical" ]) ].

Definition ReportAgent_config : gmap string pyval :=
  dict [ ("title", PStr "Reporte de Análisis Oceanográfico");
         ("output_format", PStr "md");
         ("include_plots", PBool true);
         ("include_stats", PBool true);
         ("include_metadata", PBool true);
         ("template", PStr "default") ].

Definition PosterAgent_config : gmap string pyval :=
  dict [ ("title", PStr "Análisis Oceanográfico");
         ("authors", PList [ PStr "Equipo de Investigación" ]);
         ("institution", PStr "Instituto Oceanográfico");
         ("size", PTuple [ PInt 16; PInt 20 ]);
         ("dpi", PInt 300);
         ("style", PStr "default");
         ("columns", PInt 2);
         ("font_family", PStr "sans-serif");
         ("title_size", PInt 24);
         ("heading_size", PInt 18);
         ("text_size", PInt 12);
         ("caption_size", PInt 10);
         ("margins", PDict (dict [ ("top", PFloat 0.95); ("text_bottom", PFloat 0.35);
                                   ("figure_top", PFloat 0.30); ("side", PFloat 0.1);
                                   ("spacing", PFloat 0.05) ])) ].

Definition ResearcherAgent_config : gmap string pyval :=
  dict [ ("max_results", PInt 10);
         ("min_year", PInt 2010);
         ("sort_by", PStr "relevance");
         ("fields", PList [ PStr "title"; PStr "abstract"; PStr "authors"; PStr "year";
                            PStr "journal"; PStr "doi" ]);
         ("cache_results", PBool true) ].

Definition default_config (c : agent_class) : gmap string pyval :=
  match c with
  | ParserAgent => ParserAgent_config
  | QAAgent => QAAgent_config
  | AnalystAgent => AnalystAgent_config
  | StatsAgent => StatsAgent_config
  | WaterMassAgent => WaterMassAgent_config
  | ReportAgent => ReportAgent_config
  | PosterAgent => PosterAgent_config
  | ResearcherAgent => ResearcherAgent_config
  end.

(** *** Constructors *)

(** [ResearcherAgent.__init__] reads the API key and creates its cache
    directory before it assigns [config]; the other constructors only
    assign attributes. *)
Definition new_agent (env : Env) (c : agent_class) : result agent :=
  match c with
  | ResearcherAgent =>
      match TAVILY_API_KEY env with
      | Some key =>
          if Nat.eqb (String.length key) 0
          then Err (ValueError "No se encontró TAVILY_API_KEY en las variables de entorno")
          else
            _ <- mkdir_cache_research env ;;
            Ok {| cls := ResearcherAgent; config := ResearcherAgent_config |}
      | None =>
          Err (ValueError "No se encontró TAVILY_API_KEY en las variables de entorno")
      end
  | _ => Ok {| cls := c; config := default_config c |}
  end.

(** *** [configure] *)

(** [self.config.update(config)]: the keys of [options] win. *)
Definition dict_update (self_config options : gmap string pyval) : gmap string pyval :=
  options ∪ self_config.

(** A [mass] that is a dictionary is unpacked into the keywords of
    [WaterMassDefinition]; any other [mass] is kept as it is. *)
Definition convert_mass (mass : pyval) : result pyval :=
  match mass with
  | PDict d => WaterMassDefinition d
  | _ => Ok mass
  end.

(** [for key in [...]: if key in config: self.config[key] = config[key]] *)
Definition copy_keys (keys : list string) (self_config options : gmap string pyval)
    : gmap string pyval :=
  foldl (fun cfg key =>
           match options !! key with
           | Some v => <[key := v]> cfg
           | None => cfg
           end) self_config keys.

Definition WaterMassAgent_configure (self_config options : gmap string pyval)
    : result (gmap string pyval) :=
  cfg <- match options !! "reference_masses" with
         | Some masses =>
             items <- py_iter masses ;;
             converted <- mapM convert_mass items ;;
             Ok (<["reference_masses" := PList converted]> self_config)
         | None => Ok self_config
         end ;;
  Ok (copy_keys [ "min_points"; "min_fraction"; "max_distance" ] cfg options).

(** [agent.configure(options)]: the attribute lookup fails for a class that
    defines no [configure]; [WaterMassAgent] has a body of its own, every
    other class updates its dictionary in place. *)
Definition configure (a : agent) (options : gmap string pyval) : result agent :=
  if hasattr a "configure" then
    match cls a with
    | WaterMassAgent =>
        cfg <- WaterMassAgent_configure (config a) options ;;
        Ok {| cls := cls a; config := cfg |}
    | _ => Ok {| cls := cls a; config := dict_update (config a) options |}
    end
  else
    Err (AttributeError ("'" ++ class_name (cls a) ++ "' object has no attribute 'configure'")).

End Agents.

(** ** [SupervisorAgent] ([ocean_analysis/agents/supervisor_agent.py]) *)

Module supervisor_agent.

(** The names the module binds at top level: its imports and its class. *)
Definition module_globals : list string :=
  [ "Dict"; "Any"; "List"; "Optional"; "Union"; "Path"; "asyncio"; "datetime";
    "json"; "logging"; "ParserAgent"; "QAAgent"; "AnalystAgent"; "StatsAgent";
    "WaterMassAgent"; "ReportAgent"; "PosterAgent"; "ResearcherAgent";
    "SupervisorAgent" ].

Inductive level : Type := INFO | WARNING | ERROR.

(** The attributes [__init__] assigns, and what [self.logger] has emitted. *)
Record SupervisorAgent : Type := {
  config : option (gmap string (gmap string pyval));
  agents : list (string * Agents.agent);
  workflow_status : gmap string pyval;
  feedback_history : list (gmap string pyval);
  report_reviews : list (gmap string pyval);
  log : list (level * string)
}.

Definition __init__ : SupervisorAgent :=
  {| config := None; agents := []; workflow_status := ∅;
     feedback_history := []; report_reviews := []; log := [] |}.

Definition set_config (c : gmap string (gmap string pyval)) (s : SupervisorAgent) :=
  {| config := Some c; agents := agents s; workflow_status := workflow_status s;
     feedback_history := feedback_history s; report_reviews := report_reviews s;
     log := log s |}.

Definition set_agents (a : list (string * Agents.agent)) (s : SupervisorAgent) :=
  {| config := config s; agents := a; workflow_status := workflow_status s;
     feedback_history := feedback_history s; report_reviews := report_reviews s;
     log := log s |}.

Definition set_workflow_status (w : gmap string pyval) (s : SupervisorAgent) :=
  {| config := config s; agents := agents s; workflow_status := w;
     feedback_history := feedback_history s; report_reviews := report_reviews s;
     log := log s |}.


Definition append_review (r : gmap string pyval) (s : SupervisorAgent) :=
  {| config := config s; agents := agents s; workflow_status := workflow_status s;
     feedback_history := feedback_history s;
     report_reviews := (report_reviews s ++ [r])%list; log := log s |}.

Definition emit (l : level) (msg : string) (s : SupervisorAgent) :=
  {| config := config s; agents := agents s; workflow_status := workflow_status s;
     feedback_history := feedback_history s; report_reviews := report_reviews s;
     log := (log s ++ [(l, msg)])%list |}.

(** *** Methods as state transformers that may raise *)

Definition M (A : Type) : Type := SupervisorAgent -> result A * SupervisorAgent.

Definition ret {A} (a : A) : M A := fun s => (Ok a, s).

Definition raise {A} (e : exn) : M A := fun s => (Err e, s).

Definition lift {A} (r : result A) : M A := fun s => (r, s).

Definition sbind {A B} (m : M A) (k : A -> M B) : M B :=
  fun s =>
    match m s with
    | (Ok a, s') => k a s'
    | (Err e, s') => (Err e, s')
    end.

Notation "x <~ m ;; k" := (sbind m (fun x => k))
  (at level 100, m at next level, right associativity).

Definition logger (l : level) (msg : string) : M unit :=
  fun s => (Ok tt, emit l msg s).

(** [try: body  except Exception as e: handler(e)] *)
Definition try_except {A} (body : M A) (handler : exn -> M A) : M A :=
  fun s =>
    match body s with
    | (Ok a, s') => (Ok a, s')
    | (Err e, s') => handler e s'
    end.

(** *** [initialize_workflow] and the methods it calls *)

(** The common body of the eight [_initialize_*_agent] methods: construct,
    then [if section in self.config: agent.configure(self.config[section])]. *)
Definition initialize_agent (env : Env) (c : Agents.agent_class) (section : string)
    (s : SupervisorAgent) : result Agents.agent :=
  agent <- Agents.new_agent env c ;;
  match config s with
  | None => Err (TypeError "argument of type 'NoneType' is not iterable")
  | Some cfg =>
      match cfg !! section with
      | Some options => Agents.configure agent options
      | None => Ok agent
      end
  end.

Definition _initialize_parser_agent env := initialize_agent env Agents.ParserAgent "data".
Definition _initialize_qa_agent env := initialize_agent env Agents.QAAgent "qa".
Definition _initialize_analyst_agent env := initialize_agent env Agents.AnalystAgent "analysis".
Definition _initialize_stats_agent env := initialize_agent env Agents.StatsAgent "analysis".
Definition _initialize_water_mass_agent env :=
  initialize_agent env Agents.WaterMassAgent "water_masses".
Definition _initialize_report_agent env := initialize_agent env Agents.ReportAgent "output".
Definition _initialize_poster_agent env := initialize_agent env Agents.PosterAgent "output".
Definition _initialize_researcher_agent env :=
  initialize_agent env Agents.ResearcherAgent "research".

(** The dictionary display assigned to [self.agents]; its values are
    evaluated in order and the first exception leaves [self.agents] as it
    was. *)
Definition register_agents (env : Env) (s : SupervisorAgent)
    : result (list (string * Agents.agent)) :=
  parser <- _initialize_parser_agent env s ;;
  qa <- _initialize_qa_agent env s ;;
  analyst <- _initialize_analyst_agent env s ;;
  stats <- _initialize_stats_agent env s ;;
  water_mass <- _initialize_water_mass_agent env s ;;
  report <- _initialize_report_agent env s ;;
  poster <- _initialize_poster_agent env s ;;
  researcher <- _initialize_researcher_agent env s ;;
  Ok [ ("parser", parser); ("qa", qa); ("analyst", analyst); ("stats", stats);
       ("water_mass", water_mass); ("report", report); ("poster", poster);
       ("researcher", researcher) ].

(** A call of a method that is looked up by name and that none of the eight
    classes defines ([set_data_path], [initialize]). *)
Definition call_method (a : Agents.agent) (name : string) : result Agents.agent :=
  Err (AttributeError ("'" ++ Agents.class_name (Agents.cls a)
                           ++ "' object has no attribute '" ++ name ++ "'")).

Fixpoint configure_each (items : list (string * Agents.agent))
    : result (list (string * Agents.agent)) :=
  match items with
  | [] => Ok []
  | (agent_name, agent) :: rest =>
      agent <- (if Agents.hasattr agent "set_data_path"
                then call_method agent "set_data_path" else Ok agent) ;;
      agent <- (if Agents.hasattr agent "initialize"
                then call_method agent "initialize" else Ok agent) ;;
      rest' <- configure_each rest ;;
      Ok ((agent_name, agent) :: rest')
  end.

Definition _configure_agents (env : Env) (data_path : string) : M unit :=
  try_except
    (found <~ lift (path_exists env data_path) ;;
     if negb found
     then raise (FileNotFoundError ("No se encontró el archivo de datos: " ++ data_path))
     else fun s =>
       match configure_each (agents s) with
       | Ok items => (Ok tt, set_agents items s)
       | Err e => (Err e, s)
       end)
    (fun e =>
       _ <~ logger ERROR ("Error configurando agentes: " ++ exn_str e) ;;
       raise e).

(** [isinstance(agent.config, dict)] holds of every agent of this model: the
    attribute is a dictionary by its type. *)
Definition _verify_agent_config (agent : Agents.agent) : M bool :=
  if negb (Agents.hasattr agent "configure") then
    _ <~ logger ERROR ("Agente " ++ Agents.class_name (Agents.cls agent)
                         ++ " no tiene método configure") ;;
    ret false
  else if negb (Agents.hasattr agent "config") then
    _ <~ logger ERROR ("Agente " ++ Agents.class_name (Agents.cls agent)
                         ++ " no tiene atributo config") ;;
    ret false
  else ret true.

Fixpoint interview_each (items : list (string * Agents.agent)) : M unit :=
  match items with
  | [] => ret tt
  | (agent_name, agent) :: rest =>
      _ <~ logger INFO ("Entrevistando agente: " ++ agent_name) ;;
      config_status <~ _verify_agent_config agent ;;
      if negb config_status
      then raise (ValueError ("Error en configuración del agente " ++ agent_name))
      else
        _ <~ (if Agents.hasattr agent "initialize"
              then try_except
                     (_ <~ lift (call_method agent "initialize") ;; ret tt)
                     (fun e =>
                        _ <~ logger ERROR ("Error inicializando agente " ++ agent_name
                                             ++ ": " ++ exn_str e) ;;
                        raise e)
              else ret tt) ;;
        interview_each rest
  end.

Definition _interview_agents : M unit :=
  fun s => interview_each (agents s) s.

Definition initial_workflow_status (start_time : pyval) : gmap string pyval :=
  dict [ ("start_time", start_time);
         ("status", PStr "initialized");
         ("current_stage", PStr "data_parsing");
         ("completed_stages", PList []);
         ("pending_stages",
           PList [ PStr "data_parsing"; PStr "quality_control"; PStr "analysis";
                   PStr "statistics"; PStr "water_mass_analysis"; PStr "reporting" ]) ].

Definition initialize_workflow (env : Env) (data_path : string)
    (cfg : gmap string (gmap string pyval)) : M unit :=
  _ <~ (fun s => (Ok tt, set_config cfg s)) ;;
  _ <~ logger INFO "Iniciando workflow de análisis oceanográfico" ;;
  registered <~ (fun s => (register_agents env s, s)) ;;
  _ <~ (fun s => (Ok tt, set_agents registered s)) ;;
  _ <~ _configure_agents env data_path ;;
  _ <~ _interview_agents ;;
  start_time <~ lift (datetime_now module_globals env) ;;
  fun s => (Ok tt, set_workflow_status (initial_workflow_status start_time) s).

(** *** [coordinate_analysis] *)


Section coordination.
Context `{Coordinators}.



End coordination.

(** *** Approval scoring *)

(** The three score helpers are called on [self] and defined nowhere in the
    repository; each maps a dictionary to a float. *)
Class ScoreHelpers : Type := {
  _calculate_auto_review_score : gmap string pyval -> float;
  _calculate_quality_score : gmap string pyval -> float;
  _calculate_user_feedback_score : gmap string pyval -> float
}.

Section scoring.
Context `{ScoreHelpers}.

Definition quality_threshold : float := 0.8%float.

(** [user_score = 1.0], replaced under [if user_feedback:]. *)
Definition user_score (user_feedback : option (gmap string pyval)) : float :=
  match user_feedback with
  | Some fb =>
      if dict_truthy fb then _calculate_user_feedback_score fb else 1.0%float
  | None => 1.0%float
  end.

Definition final_score (auto_review quality_eval : gmap string pyval)
    (user_feedback : option (gmap string pyval)) : float :=
  (_calculate_auto_review_score auto_review * 0.4
   + _calculate_quality_score quality_eval * 0.4
   + user_score user_feedback * 0.2)%float.

Definition _determine_approval_status (auto_review quality_eval : gmap string pyval)
    (user_feedback : option (gmap string pyval)) : string :=
  let final_score := final_score auto_review quality_eval user_feedback in
  if (quality_threshold <=? final_score)%float then "approved"
  else if (quality_threshold * 0.8 <=? final_score)%float then "needs_minor_revision"
  else "needs_major_revision".

End scoring.

(** *** [review_report] *)

(** The review helpers, also missing from the repository.  The two awaited
    ones inspect the report file, so they see the world and may raise. *)
Class ReviewHelpers : Type := {
  _perform_automated_review : Env -> string -> result (gmap string pyval);
  _evaluate_report_quality : Env -> string -> result (gmap string pyval);
  _generate_recommendations :
    gmap string pyval -> gmap string pyval -> option (gmap string pyval) -> list pyval
}.

Section review.
Context `{ScoreHelpers} `{ReviewHelpers}.

Definition review_report (env : Env) (report_path : string)
    (user_feedback : option (gmap string pyval)) : M (gmap string pyval) :=
  timestamp <~ lift (datetime_now module_globals env) ;;
  let review_results :=
    dict [ ("timestamp", timestamp); ("status", PStr "pending");
           ("feedback", PList []); ("recommendations", PList []);
           ("approval_status", PStr "pending") ] in
  auto_review <~ lift (_perform_automated_review env report_path) ;;
  let review_results := <["automated_review" := PDict auto_review]> review_results in
  let review_results :=
    match user_feedback with
    | Some fb =>
        if dict_truthy fb then <["user_feedback" := PDict fb]> review_results
        else review_results
    | None => review_results
    end in
  quality_evaluation <~ lift (_evaluate_report_quality env report_path) ;;
  let review_results := <["quality_evaluation" := PDict quality_evaluation]> review_results in
  let recommendations :=
    _generate_recommendations auto_review quality_evaluation user_feedback in
  let review_results := <["recommendations" := PList recommendations]> review_results in
  let approval_status :=
    _determine_approval_status auto_review quality_evaluation user_feedback in
  let review_results := <["approval_status" := PStr approval_status]> review_results in
  fun s => (Ok review_results, append_review review_results s).


End review.

(** *** [provide_feedback] *)


Section feedback.
Context `{EvaluationHelpers}.




End feedback.

(** *** [verify_outputs] *)

Definition required_files : list string :=
  [ "figures/ctd_profiles.png";
    "figures/ts_diagram.png";
    "figures/vertical_sections.png";
    "figures/spatial_distribution.png" ].

(** [repr] of a list of strings, as an f-string prints it. *)
Fixpoint repr_items (l : list string) : string :=
  match l with
  | [] => EmptyString
  | [x] => "'" ++ x ++ "'"
  | x :: rest => "'" ++ x ++ "', " ++ repr_items rest
  end.

Definition repr_list (l : list string) : string := "[" ++ repr_items l ++ "]".

(** The [for] loop over [required_files], accumulating [missing_files]. *)
Fixpoint check_files (env : Env) (output_dir : string) (files missing_files : list string)
    : M (list string) :=
  match files with
  | [] => ret missing_files
  | file :: rest =>
      found <~ lift (path_exists env (path_join output_dir file)) ;;
      if negb found then
        _ <~ logger WARNING ("No se encuentra el archivo: " ++ file) ;;
        check_files env output_dir rest (missing_files ++ [file])%list
      else check_files env output_dir rest missing_files
  end.

Definition verify_body (env : Env) (output_dir : string) : M bool :=
  missing_files <~ check_files env output_dir required_files [] ;;
  if negb (Nat.eqb (length missing_files) 0) then
    _ <~ logger WARNING ("Faltan los siguientes archivos: " ++ repr_list missing_files) ;;
    ret false
  else ret true.

(** Both the [try] block and the handler end in [return], so the method
    returns a boolean whatever happens inside. *)
Definition verify_outputs (env : Env) (output_dir : string) (s : SupervisorAgent)
    : bool * SupervisorAgent :=
  match verify_body env output_dir s with
  | (Ok b, s') => (b, s')
  | (Err e, s') => (false, emit ERROR ("Error verificando outputs: " ++ exn_str e) s')
  end.

End supervisor_agent.

(** ** The orchestrator ([ocean_analysis/core/agent_orchestrator.py]) *)

Module agent_orchestrator.

(** The names the module binds at top level: [from typing import Dict, Any,
    List], [import asyncio], [from pathlib import Path], and its classes. *)
Definition module_globals : list string :=
  [ "Dict"; "Any"; "List"; "asyncio"; "Path"; "AgentOrchestrator";
    "AgentCommunicationProtocol"; "WorkflowManager"; "AgentIntegrationLayer" ].

(** An entry of [workflow['stages']]. *)
Record stage : Type := {
  name : string;
  agents : list string;
  parallel : bool
}.

(** An [asyncio.Queue()] without a bound: the messages waiting, oldest
    first. *)
Definition queue : Type := list (gmap string pyval).

Record AgentOrchestrator : Type := {
  supervisor : pyval;
  agent_hierarchy : gmap string (list string);
  dependencies : gmap string (list string);
  communication_channels : gmap string queue;
  (** assigned by [setup_workflow] only *)
  workflow : option (list stage)
}.

Definition AgentOrchestrator__init__ : AgentOrchestrator :=
  {| supervisor := PNone;
     agent_hierarchy :=
       list_to_map [ ("level_1", [ "supervisor" ]);
                     ("level_2", [ "parser"; "qa" ]);
                     ("level_3", [ "analyst"; "water_mass"; "stats" ]);
                     ("level_4", [ "report" ]) ];
     dependencies :=
       list_to_map [ ("parser", []);
                     ("qa", [ "parser" ]);
                     ("analyst", [ "parser"; "qa" ]);
                     ("water_mass", [ "parser"; "qa"; "analyst" ]);
                     ("stats", [ "parser"; "qa"; "analyst" ]);
                     ("report", [ "parser"; "qa"; "analyst"; "water_mass"; "stats" ]) ];
     communication_channels := ∅;
     workflow := None |}.

Definition workflow_stages : list stage :=
  [ {| name := "data_processing"; agents := [ "parser"; "qa" ]; parallel := false |};
    {| name := "analysis"; agents := [ "analyst"; "water_mass"; "stats" ];
       parallel := true |};
    {| name := "reporting"; agents := [ "report" ]; parallel := false |} ].

Definition setup_workflow (self : AgentOrchestrator) : AgentOrchestrator :=
  {| supervisor := supervisor self;
     agent_hierarchy := agent_hierarchy self;
     dependencies := dependencies self;
     communication_channels :=
       list_to_map [ ("data_queue", []); ("results_queue", []);
                     ("feedback_queue", []); ("status_queue", []) ];
     workflow := Some workflow_stages |}.

(** *** [AgentCommunicationProtocol] *)

(** The message is a dictionary display whose last value is
    [datetime.now()]; [channel.put] runs only once the display is built. *)
Definition send_message (env : Env) (sender receiver message_type : string)
    (content : pyval) (channel : queue) : result unit * queue :=
  match datetime_now module_globals env with
  | Ok timestamp =>
      let message :=
        dict [ ("sender", PStr sender); ("receiver", PStr receiver);
               ("type", PStr message_type); ("content", content);
               ("timestamp", timestamp) ] in
      (Ok tt, (channel ++ [message])%list)
  | Err e => (Err e, channel)
  end.

Definition request_feedback (env : Env) (agent : string) (results : gmap string pyval)
    (supervisor_queue : queue) : result unit * queue :=
  send_message env agent "supervisor" "feedback_request" (PDict results) supervisor_queue.

(** *** [WorkflowManager] *)

Record WorkflowManager : Type := {
  orchestrator : AgentOrchestrator;
  current_stage : option string;
  stage_results : gmap string (list (gmap string pyval))
}.

Definition WorkflowManager__init__ (orchestrator : AgentOrchestrator) : WorkflowManager :=
  {| orchestrator := orchestrator; current_stage := None; stage_results := ∅ |}.

Definition set_current_stage (n : string) (self : WorkflowManager) : WorkflowManager :=
  {| orchestrator := orchestrator self; current_stage := Some n;
     stage_results := stage_results self |}.

Definition set_stage_results (n : string) (results : list (gmap string pyval))
    (self : WorkflowManager) : WorkflowManager :=
  {| orchestrator := orchestrator self; current_stage := current_stage self;
     stage_results := <[n := results]> (stage_results self) |}.

(** What [_execute_agent] calls and the repository does not define
    ([_check_dependencies], [get_agent], [_request_supervisor_feedback],
    [_apply_corrections]), and the unit's own [analyze], which is outside the
    orchestration core.  Each is a function of its arguments that may
    raise. *)
Class ExecutionHelpers : Type := {
  agent_object : Type;
  _check_dependencies : string -> result unit;
  get_agent : string -> result agent_object;
  analyze : agent_object -> gmap string pyval -> result (gmap string pyval);
  _request_supervisor_feedback :
    string -> gmap string pyval -> result (gmap string pyval);
  _apply_corrections :
    agent_object -> gmap string pyval -> gmap string pyval -> result (gmap string pyval)
}.

Section execution.
Context `{ExecutionHelpers}.

Definition _execute_agent (agent_name : string) (input_data : gmap string pyval)
    : result (gmap string pyval) :=
  _ <- _check_dependencies agent_name ;;
  agent <- get_agent agent_name ;;
  results <- analyze agent input_data ;;
  feedback <- _request_supervisor_feedback agent_name results ;;
  match feedback !! "needs_correction" with
  | Some flag =>
      if truthy flag then _apply_corrections agent results feedback else Ok results
  | None => Err (KeyError "'needs_correction'")
  end.

(** The sequential branch: [input_data.update(result)] after every agent.
    The dictionary is the caller's, so the updates made before a failure
    stay. *)
Fixpoint run_sequential (agents : list string) (input_data : gmap string pyval)
    : result (list (gmap string pyval)) * gmap string pyval :=
  match agents with
  | [] => (Ok [], input_data)
  | agent :: rest =>
      match _execute_agent agent input_data with
      | Ok result =>
          match run_sequential rest (Agents.dict_update input_data result) with
          | (Ok results, input_data') => (Ok (result :: results), input_data')
          | (Err e, input_data') => (Err e, input_data')
          end
      | Err e => (Err e, input_data)
      end
  end.

(** The parallel branch: one task per agent, all on the same [input_data],
    and [asyncio.gather] returns their results in the order of the list.  When
    several tasks raise, the exception reported here is that of the first
    one in the list. *)
Definition run_parallel (agents : list string) (input_data : gmap string pyval)
    : result (list (gmap string pyval)) :=
  mapM (fun agent => _execute_agent agent input_data) agents.

Definition run_stage (stg : stage) (input_data : gmap string pyval)
    : result (list (gmap string pyval)) * gmap string pyval :=
  if parallel stg then (run_parallel (agents stg) input_data, input_data)
  else run_sequential (agents stg) input_data.

(** The [for stage in ...] loop; the state is the manager and the
    caller's [input_data]. *)
Fixpoint execute_stages (stages : list stage) (self : WorkflowManager)
    (input_data : gmap string pyval)
    : result (gmap string (list (gmap string pyval)))
      * (WorkflowManager * gmap string pyval) :=
  match stages with
  | [] => (Ok (stage_results self), (self, input_data))
  | stg :: rest =>
      let self := set_current_stage (name stg) self in
      match run_stage stg input_data with
      | (Ok results, input_data') =>
          execute_stages rest (set_stage_results (name stg) results self) input_data'
      | (Err e, input_data') => (Err e, (self, input_data'))
      end
  end.

Definition execute_workflow (self : WorkflowManager) (input_data : gmap string pyval)
    : result (gmap string (list (gmap string pyval)))
      * (WorkflowManager * gmap string pyval) :=
  match workflow (orchestrator self) with
  | Some stages => execute_stages stages self input_data
  | None =>
      (Err (AttributeError "'AgentOrchestrator' object has no attribute 'workflow'"),
       (self, input_data))
  end.

End execution.

End agent_orchestrator.

(** * Properties *)

(** ** Facts about binary64 comparison and multiplication *)

Module float_facts.





Lemma SFmul_comm prec emax x y : SFmul prec emax x y = SFmul prec emax y x.
Proof.
  destruct x as [sx| sx | |sx mx ex], y as [sy|sy| |sy my ey]; simpl;
    try reflexivity; try (now rewrite xorb_comm).
  now rewrite xorb_comm, Pos.mul_comm, Z.add_comm.
Qed.

Lemma mul_comm (x y : float) : (x * y)%float = (y * x)%float.
Proof. apply Prim2SF_inj. rewrite !mul_spec. apply SFmul_comm. Qed.

End float_facts.

(** ** Approval scoring *)

Module approval.
Import supervisor_agent.

(** Helpers that read the score from the key ['score'] of their argument. *)
Definition score_of (d : gmap string pyval) : float :=
  match d !! "score" with
  | Some (PFloat f) => f
  | _ => 0%float
  end.

Definition scores_by_key : ScoreHelpers :=
  {| _calculate_auto_review_score := score_of;
     _calculate_quality_score := score_of;
     _calculate_user_feedback_score := score_of |}.

Definition scored (f : float) : gmap string pyval := dict [ ("score", PFloat f) ].

(** The three worked examples of the specification. *)
Example approved_example :
  @_determine_approval_status scores_by_key (scored 0.9) (scored 0.9) None = "approved".
Proof. vm_compute. reflexivity. Qed.

Example major_revision_example :
  @_determine_approval_status scores_by_key (scored 0.5) (scored 0.5) (Some (scored 0.5))
  = "needs_major_revision".
Proof. vm_compute. reflexivity. Qed.

Example minor_revision_example :
  @_determine_approval_status scores_by_key (scored 0.7) (scored 0.7) (Some (scored 0.7))
  = "needs_minor_revision".
Proof. vm_compute. reflexivity. Qed.


Section thresholds.
Context `{ScoreHelpers}.



End thresholds.
End approval.

(** ** The [configure] contract of the agents *)

Module configure_contract.
Import Agents.










(** [ParserAgent] defines no [configure] at all. *)
Lemma configure_parser (a : agent) (options : gmap string pyval) :
  cls a = ParserAgent ->
  configure a options
  = Err (AttributeError "'ParserAgent' object has no attribute 'configure'").
Proof. destruct a as [c cfg]. simpl. intros ->. reflexivity. Qed.


(** The theorem at a concrete agent and options: a new [QAAgent] given a
    known and an unknown key. *)
Example configure_qa_example :
  exists a',
    configure {| cls := QAAgent; config := QAAgent_config |}
              (dict [ ("min_samples", PInt 8); ("strict", PBool true) ]) = Ok a'
    /\ config a' !! "min_samples" = Some (PInt 8)
    /\ config a' !! "strict" = Some (PBool true)
    /\ config a' !! "max_gap" = Some (PInt 100).
Proof. eexists. vm_compute. repeat split. Qed.

End configure_contract.

(** ** Workflow initialization *)

Module initialization.
Import supervisor_agent.

Lemma hasattr_set_data_path (a : Agents.agent) :
  Agents.hasattr a "set_data_path" = false.
Proof. destruct a as [[] cfg]; reflexivity. Qed.

Lemma hasattr_initialize (a : Agents.agent) :
  Agents.hasattr a "initialize" = false.
Proof. destruct a as [[] cfg]; reflexivity. Qed.

Lemma configure_each_id (items : list (string * Agents.agent)) :
  configure_each items = Ok items.
Proof.
  induction items as [|[agent_name agent] rest IH]; [reflexivity|].
  cbn [configure_each].
  rewrite hasattr_set_data_path. cbn [bind].
  rewrite hasattr_initialize. cbn [bind].
  rewrite IH. reflexivity.
Qed.

Definition parser_agent : Agents.agent :=
  {| Agents.cls := Agents.ParserAgent; Agents.config := Agents.ParserAgent_config |}.

Lemma initialize_parser_with_data env s cfg :
  config s = Some cfg -> is_Some (cfg !! "data") ->
  _initialize_parser_agent env s
  = Err (AttributeError "'ParserAgent' object has no attribute 'configure'").
Proof.
  intros Hc [options Ho].
  unfold _initialize_parser_agent, initialize_agent. rewrite Hc, Ho. reflexivity.
Qed.

Lemma initialize_parser_without_data env s cfg :
  config s = Some cfg -> cfg !! "data" = None ->
  _initialize_parser_agent env s = Ok parser_agent.
Proof.
  intros Hc Ho.
  unfold _initialize_parser_agent, initialize_agent. rewrite Hc, Ho. reflexivity.
Qed.

Ltac step_bind :=
  match goal with
  | |- bind ?r _ = _ -> _ => destruct r; cbn [bind]; [|discriminate]
  end.

Lemma register_agents_with_data env s cfg :
  config s = Some cfg -> is_Some (cfg !! "data") ->
  register_agents env s
  = Err (AttributeError "'ParserAgent' object has no attribute 'configure'").
Proof.
  intros Hc Ho. unfold register_agents.
  rewrite (initialize_parser_with_data env s cfg Hc Ho). reflexivity.
Qed.

Lemma register_agents_head env s cfg registered :
  config s = Some cfg -> cfg !! "data" = None ->
  register_agents env s = Ok registered ->
  exists rest, registered = ("parser", parser_agent) :: rest.
Proof.
  intros Hc Ho. unfold register_agents.
  rewrite (initialize_parser_without_data env s cfg Hc Ho). cbn [bind].
  do 7 step_bind.
  intros [= <-]. eexists. reflexivity.
Qed.

(** The interview stops at the parser, the first agent of the registry. *)
Lemma interview_parser_first rest s :
  interview_each (("parser", parser_agent) :: rest) s
  = (Err (ValueError "Error en configuración del agente parser"),
     emit ERROR "Agente ParserAgent no tiene método configure"
       (emit INFO "Entrevistando agente: parser" s)).
Proof. reflexivity. Qed.

(** What [initialize_workflow] returns, by cases on the registration of the
    agents and on the probe of the data path. *)
Lemma initialize_workflow_outcome env data_path cfg s :
  let s0 := emit INFO "Iniciando workflow de análisis oceanográfico" (set_config cfg s) in
  initialize_workflow env data_path cfg s
  = match register_agents env s0 with
    | Err e => (Err e, s0)
    | Ok registered =>
        let s1 := set_agents registered s0 in
        match path_exists env data_path with
        | Err e => (Err e, emit ERROR ("Error configurando agentes: " ++ exn_str e) s1)
        | Ok false =>
            let e := FileNotFoundError ("No se encontró el archivo de datos: " ++ data_path) in
            (Err e, emit ERROR ("Error configurando agentes: " ++ exn_str e) s1)
        | Ok true =>
            match interview_each registered (set_agents registered s1) with
            | (Err e, s2) => (Err e, s2)
            | (Ok _, s2) =>
                (Ok tt, set_workflow_status
                          (initial_workflow_status (PDatetime (now env))) s2)
            end
        end
    end.
Proof.
  intros s0. unfold initialize_workflow, sbind, logger. fold s0.
  destruct (register_agents env s0) as [registered|e]; [|reflexivity].
  unfold _configure_agents, try_except, sbind, lift, raise, logger.
  destruct (path_exists env data_path) as [[|]|e]; cbn [negb]; try reflexivity.
  cbn [agents set_agents]. rewrite configure_each_id.
  unfold _interview_agents. cbn [agents set_agents].
  destruct (interview_each registered _) as [[[]|e] s2]; reflexivity.
Qed.

(** An environment in which every path exists and the researcher's API key
    and cache directory are available. *)
Definition friendly_env : Env :=
  {| now := 0;
     path_exists := fun _ => Ok true;
     TAVILY_API_KEY := Some "tvly-key";
     mkdir_cache_research := Ok tt |}.

(** A configuration without a ['data'] section whose ['water_masses']
    section gives ['reference_masses'] as a number. *)
Definition bad_reference_masses : gmap string (gmap string pyval) :=
  list_to_map [ ("water_masses", dict [ ("reference_masses", PInt 5) ]) ].

(** C9 fails in its second case: without a ['data'] section the exception
    need not be the [ValueError] of [_interview_agents].  Here the data path
    exists and [WaterMassAgent.configure] raises [TypeError] while the
    registry is being built. *)
Lemma initialize_workflow_counterexample :
  bad_reference_masses !! "data" = None
  /\ path_exists friendly_env "data/ctd.csv" = Ok true
  /\ fst (initialize_workflow friendly_env "data/ctd.csv" bad_reference_masses __init__)
     = Err (TypeError "'int' object is not iterable").
Proof. vm_compute. repeat split. Qed.

(** C9, as the code has it.  [initialize_workflow] always raises and leaves
    [workflow_status] as it was, so the status ['initialized'] is never
    reached through it.  With a ['data'] section the exception is the
    [AttributeError] of calling [configure] on a [ParserAgent].  Without
    one, an exception raised while the other agents are built propagates;
    when they are all built and the data path exists, [_verify_agent_config]
    returns [False] for the parser and [_interview_agents] raises
    [ValueError]. *)
Theorem initialize_workflow_always_raises
    (env : Env) (data_path : string) (cfg : gmap string (gmap string pyval))
    (s : SupervisorAgent) :
  exists e s',
    initialize_workflow env data_path cfg s = (Err e, s')
    /\ workflow_status s' = workflow_status s
    /\ (is_Some (cfg !! "data") ->
          e = AttributeError "'ParserAgent' object has no attribute 'configure'")
    /\ (cfg !! "data" = None ->
          (forall e0, register_agents env (set_config cfg s) = Err e0 -> e = e0)
          /\ (forall registered,
                register_agents env (set_config cfg s) = Ok registered ->
                path_exists env data_path = Ok true ->
                e = ValueError "Error en configuración del agente parser")).
Proof.
  rewrite initialize_workflow_outcome. cbv zeta.
  set (s0 := emit INFO _ (set_config cfg s)).
  assert (Hreg : register_agents env s0 = register_agents env (set_config cfg s))
    by reflexivity.
  assert (Hcfg : config (set_config cfg s) = Some cfg) by reflexivity.
  rewrite Hreg.
  destruct (register_agents env (set_config cfg s)) as [registered|e0] eqn:Hr.
  - destruct (cfg !! "data") as [options|] eqn:Hdata.
    { rewrite (register_agents_with_data env _ cfg Hcfg) in Hr
        by (rewrite Hdata; eauto).
      discriminate. }
    destruct (register_agents_head env _ cfg registered Hcfg Hdata Hr) as [rest ->].
    destruct (path_exists env data_path) as [[|]|e1].
    + rewrite interview_parser_first.
      eexists _, _. split; [reflexivity|]. split; [reflexivity|].
      split; [intros [? ?]; discriminate|].
      intros _. split; [intros e0 ?; discriminate | reflexivity].
    + eexists _, _. split; [reflexivity|]. split; [reflexivity|].
      split; [intros [? ?]; discriminate|].
      intros _. split; [intros e0 ?; discriminate | intros ? ? ?; discriminate].
    + eexists _, _. split; [reflexivity|]. split; [reflexivity|].
      split; [intros [? ?]; discriminate|].
      intros _. split; [intros e0 ?; discriminate | intros ? ? ?; discriminate].
  - eexists _, _. split; [reflexivity|]. split; [reflexivity|]. split.
    + intros Hdata.
      rewrite (register_agents_with_data env _ cfg Hcfg Hdata) in Hr.
      congruence.
    + intros _. split; [intros e1 [= <-]; reflexivity | intros ? ?; discriminate].
Qed.

End initialization.

(** ** Output verification *)

Module output_verification.
Import supervisor_agent.





Definition emit_all (records : list (level * string)) (s : SupervisorAgent) : SupervisorAgent :=
  foldl (fun s r => emit (fst r) (snd r) s) s records.

Lemma emit_all_app r1 r2 s : emit_all (r1 ++ r2)%list s = emit_all r2 (emit_all r1 s).
Proof. unfold emit_all. apply foldl_app. Qed.









(** The theorem where one artifact is absent: the T-S diagram. *)
Definition without_ts_diagram : Env :=
  {| now := 0;
     path_exists := fun p =>
       Ok (negb (String.eqb p "out/figures/ts_diagram.png"));
     TAVILY_API_KEY := None;
     mkdir_cache_research := Ok tt |}.

Example verify_outputs_one_missing :
  verify_outputs without_ts_diagram "out" __init__
  = (false,
     emit WARNING "Faltan los siguientes archivos: ['figures/ts_diagram.png']"
       (emit WARNING "No se encuentra el archivo: figures/ts_diagram.png" __init__)).
Proof. vm_compute. reflexivity. Qed.

(** A probe that raises is answered with [False] as well. *)
Example verify_outputs_probe_raises :
  fst (verify_outputs
         {| now := 0;
            path_exists := fun _ => Err (OSError "[Errno 13] Permission denied");
            TAVILY_API_KEY := None;
            mkdir_cache_research := Ok tt |} "out" __init__) = false.
Proof. reflexivity. Qed.

End output_verification.

(** ** Stage feedback *)

Module stage_feedback.
Import supervisor_agent.




Definition at_time (t : Z) : Env :=
  {| now := t; path_exists := fun _ => Ok true; TAVILY_API_KEY := None;
     mkdir_cache_research := Ok tt |}.



Section determinism.
Context `{EvaluationHelpers}.





End determinism.
End stage_feedback.

(** ** Review history *)

Module review_history.
Import supervisor_agent.

Section append_only.
Context `{ScoreHelpers} `{ReviewHelpers}.





End append_only.

(** Review helpers that read the scores from the report's reviews. *)
Definition fixed_reviews : ReviewHelpers :=
  {| _perform_automated_review := fun _ _ => Ok (approval.scored 0.9);
     _evaluate_report_quality := fun _ _ => Ok (approval.scored 0.9);
     _generate_recommendations := fun _ _ _ => [] |}.

(** Two reviews in a row: the first record stays first, with its verdict. *)
Example two_reviews :
  let s1 := snd (@review_report approval.scores_by_key fixed_reviews
                   (stage_feedback.at_time 0) "report.md" None __init__) in
  let s2 := snd (@review_report approval.scores_by_key fixed_reviews
                   (stage_feedback.at_time 1) "report.md"
                   (Some (approval.scored 0.1)) s1) in
  length (report_reviews s1) = 1
  /\ length (report_reviews s2) = 2
  /\ report_reviews s2 !! 0 = report_reviews s1 !! 0
  /\ (report_reviews s2 !! 0 ≫= (.!! "approval_status")) = Some (PStr "approved")
  /\ (report_reviews s2 !! 1 ≫= (.!! "approval_status"))
     = Some (PStr "needs_minor_revision").
Proof. vm_compute. repeat split. Qed.

End review_history.

(** ** Scheduling of stages *)

Module scheduling.
Import agent_orchestrator.





Definition example_input : gmap string pyval := dict [ ("path", PStr "data/ctd.csv") ].

Definition example_manager : WorkflowManager :=
  WorkflowManager__init__ (setup_workflow AgentOrchestrator__init__).





Section stages.
Context `{ExecutionHelpers}.







End stages.



End scheduling.

(** ** Propagation of stage failures *)

Module failure_propagation.
Import supervisor_agent.




Section propagation.
Context `{Coordinators} `{agent_orchestrator.ExecutionHelpers}.




End propagation.

(** A unit of the second stage fails: the manager stops there, with the
    first stage's results and the name of the second stage. *)
Definition failing_stats : agent_orchestrator.ExecutionHelpers :=
  {| agent_orchestrator.agent_object := string;
     agent_orchestrator._check_dependencies := fun _ => Ok tt;
     agent_orchestrator.get_agent := fun agent_name => Ok agent_name;
     agent_orchestrator.analyze := fun agent input_data =>
       if String.eqb agent "stats" then Err (ValueError "not enough samples")
       else Ok input_data;
     agent_orchestrator._request_supervisor_feedback := fun _ _ =>
       Ok (dict [ ("needs_correction", PBool false) ]);
     agent_orchestrator._apply_corrections := fun _ results _ => Ok results |}.

Example execute_workflow_stops :
  let outcome := @agent_orchestrator.execute_workflow failing_stats
                   scheduling.example_manager scheduling.example_input in
  fst outcome = Err (ValueError "not enough samples")
  /\ agent_orchestrator.current_stage (fst (snd outcome)) = Some "analysis"
  /\ dom (agent_orchestrator.stage_results (fst (snd outcome)))
     = ({[ "data_processing" ]} : gset string).
Proof. vm_compute. repeat split. Qed.

End failure_propagation.

(** ** The communication protocol *)

Module messaging.
Import agent_orchestrator.

Lemma datetime_not_bound : "datetime" ∉ (module_globals ++ builtins)%list.
Proof. apply (bool_decide_eq_false_1 _). vm_compute. reflexivity. Qed.

(** C10.  [send_message] raises [NameError] for the name [datetime], which
    the module neither imports nor defines and which is no builtin, and the
    channel is left as it was: nothing is enqueued.  The same holds of
    [request_feedback], which goes through [send_message]. *)
Theorem send_message_raises_NameError
    (env : Env) (sender receiver message_type : string) (content : pyval)
    (channel : queue) :
  send_message env sender receiver message_type content channel
  = (Err (NameError "name 'datetime' is not defined"), channel)
  /\ ("datetime" ∉ (module_globals ++ builtins)%list)
  /\ (forall agent results,
        request_feedback env agent results channel
        = (Err (NameError "name 'datetime' is not defined"), channel)).
Proof.
  split; [reflexivity|]. split; [apply datetime_not_bound|].
  intros agent results. reflexivity.
Qed.

(** In the supervisor's module, which imports [datetime], the same
    expression evaluates. *)
Example supervisor_module_has_datetime (env : Env) :
  datetime_now supervisor_agent.module_globals env = Ok (PDatetime (now env)).
Proof. reflexivity. Qed.

End messaging.
